(** * data_model.py: the valuation data model, embedded in Rocq

    Source: [Imobiliário/neokoortimativa/data_model.py].

    Conventions of the embedding.
    - A Python [float] that the module computes with is a rational ([Q]):
      no rounding and no overflow.  The one non-finite value that numpy can
      produce here from finite inputs, [inf] (zero raised to a negative
      order), is kept as [PosInf].  What is proved over these exact floats
      is what rounding leaves intact; the formula of the metric itself is
      stated over the arithmetic of binary64, taken as a parameter
      ([Float64]).
    - A Python [int] is a [Z].
    - A function that can raise returns a [result]; exceptions are values
      of [exn].
    - In the bodies where a name or an attribute does not resolve, the
      lookups are written out ([load_name], [getattr]) against the frame
      of the call and against the names bound at module level, in the
      order Python evaluates them.
    - [pyproj] and [pydantic] are libraries, not code of the module: what
      the module needs from them is a parameter, or is modelled from the
      declarations the module hands to them.
    - The embedding is per function: what happens while the module itself
      is imported (decorators, annotations) is not part of it. *)

From Stdlib Require Import ZArith QArith Qabs Qpower String List Bool Lia Lqa.
Import ListNotations.

Set Warnings "-register-all".
Local Open Scope string_scope.
Local Open Scope Q_scope.

(** ** Python values and exceptions *)

Inductive value : Type :=
| VNone
| VBool (b : bool)
| VInt (z : Z)
| VNum (q : Q)                                (* float *)
| VStr (s : string)
| VTuple (items : list value)
| VList (items : list value)
| VDict (entries : list (string * value))
| VObj (attrs : list (string * value))        (* instance, by attribute dict *)
| VRef (name : string).                       (* module, class or function *)

Inductive exn : Type :=
| NameError (name : string)
| AttributeError (name : string)
| IndexError
| TypeError
| ValidationError (locs : list string)        (* pydantic *)
| ProjectionError.                            (* raised by the projection library *)

Inductive result (A : Type) : Type :=
| Ok (a : A)
| Raise (e : exn).

Arguments Ok {A} a.
Arguments Raise {A} e.

Definition bind {A B : Type} (r : result A) (k : A -> result B) : result B :=
  match r with
  | Ok a => k a
  | Raise e => Raise e
  end.

Declare Scope py_scope.
Delimit Scope py_scope with py.
Notation "x <- e ;; k" := (bind e (fun x => k))
  (at level 61, e at next level, right associativity) : py_scope.
Notation "' pat <- e ;; k" := (bind e (fun x => match x with pat => k end))
  (at level 61, pat pattern, e at next level, right associativity) : py_scope.
Local Open Scope py_scope.

Definition succeeds {A : Type} (r : result A) : bool :=
  match r with Ok _ => true | Raise _ => false end.

(** *** Names and attributes *)

Fixpoint assoc (name : string) (l : list (string * value)) : option value :=
  match l with
  | [] => None
  | (k, v) :: l' => if String.eqb k name then Some v else assoc name l'
  end.

(** Names bound at module level, in the order the module binds them. *)
Definition module_globals : list (string * value) :=
  map (fun n => (n, VRef n))
    [ "BaseModel"; "PositiveFloat"; "List"; "Any"; "Tuple"; "Enum"; "np";
      "pyproj"; "JIT"; "BRL"; "unit_id"; "Interval"; "_to_planar_transform";
      "LocationSpec"; "TransactionSet"; "CitySet"; "ModelSpec";
      "AVM_AbbrevSpecm"; "AddressSpec"; "UnitSpec" ].

(** Loading a name: the locals of the frame first, then the module.
    (No name loaded by the bodies embedded below is a builtin.) *)
Definition load_name (frame : list (string * value)) (name : string)
  : result value :=
  match assoc name frame with
  | Some v => Ok v
  | None =>
      match assoc name module_globals with
      | Some v => Ok v
      | None => Raise (NameError name)
      end
  end.

(** Attribute access.  Only instances carry the data attributes the module
    asks for ([coordinates], [lat], [lon], [on], [utm_north]); tuples,
    lists and numbers have none of them. *)
Definition getattr (v : value) (name : string) : result value :=
  match v with
  | VObj attrs =>
      match assoc name attrs with
      | Some a => Ok a
      | None => Raise (AttributeError name)
      end
  | _ => Raise (AttributeError name)
  end.

(** Subscription [v[i]] by a non-negative index. *)
Definition getitem (v : value) (i : nat) : result value :=
  match v with
  | VTuple items | VList items =>
      match nth_error items i with
      | Some a => Ok a
      | None => Raise IndexError
      end
  | _ => Raise TypeError
  end.

(** ** Floats as numpy computes with them *)

Inductive npfloat : Type :=
| Finite (q : Q)
| PosInf.

(** Python's [==] on two such floats. *)
Definition float_eqb (x y : npfloat) : bool :=
  match x, y with
  | Finite a, Finite b => Qeq_bool a b
  | PosInf, PosInf => true
  | _, _ => false
  end.

Definition float_eq (x y : npfloat) : Prop :=
  match x, y with
  | Finite a, Finite b => a == b
  | PosInf, PosInf => True
  | _, _ => False
  end.

Definition np_abs (x : Q) : Q := Qabs x.

(** [np.power] of a non-negative float to an integer order: a zero base
    with a negative order gives [inf] (with a warning, not an exception);
    order zero gives [1.0] for every base. *)
Definition np_power (x : Q) (p : Z) : npfloat :=
  if (p <? 0)%Z && Qeq_bool x 0 then PosInf else Finite (x ^ p).

Definition float_add (x y : npfloat) : npfloat :=
  match x, y with
  | Finite a, Finite b => Finite (a + b)
  | _, _ => PosInf
  end.

(** Operands of arithmetic: a float or an int is a number, anything else
    makes numpy raise [TypeError]. *)
Definition as_float (v : value) : result Q :=
  match v with
  | VNum q => Ok q
  | VInt z => Ok (inject_Z z)
  | _ => Raise TypeError
  end.

(** The order [p] of the metric is an [int]. *)
Definition as_int (v : value) : result Z :=
  match v with
  | VInt z => Ok z
  | _ => Raise TypeError
  end.

(** ** The projection library

    [pyproj] is not part of the repository: [pyproj.transform] is a
    parameter of the functions that call it.  A projection object is
    represented by the definition string it was built from. *)

Definition pyproj_Proj (srs : string) : value := VObj [("srs", VStr srs)].

Module LocationSpec.

Record t : Type := {
  location : value;
  lat : value;
  lon : value;
  utm_north : Q;
  utm_east : Q
}.

(** The attribute dict of an instance. *)
Definition obj (self : t) : value :=
  VObj [ ("location", location self); ("lat", lat self); ("lon", lon self);
         ("utm_north", VNum (utm_north self));
         ("utm_east", VNum (utm_east self)) ].

(** [utm_distance(self, utm_north, utm_east, p=2)] *)
Definition utm_distance (self : t) (utm_north' utm_east' : Q) (p : Z)
  : npfloat :=
  let dy := np_power (np_abs (utm_north' - utm_north self)) p in
  let dx := np_power (np_abs (utm_east' - utm_east self)) p in
  float_add dx dy.

(** Calling the bound method [self.utm_distance] with positional
    arguments: after [self] it takes [utm_north], [utm_east] and
    optionally [p]. *)
Definition call_utm_distance (self : t) (args : list value)
  : result npfloat :=
  match args with
  | [a; b] =>
      n <- as_float a ;; e <- as_float b ;;
      Ok (utm_distance self n e 2)
  | [a; b; c] =>
      n <- as_float a ;; e <- as_float b ;; p <- as_int c ;;
      Ok (utm_distance self n e p)
  | _ => Raise TypeError
  end.

(** [loc_distance(self, other, p=2)]: the arguments of the call on line 61
    are evaluated left to right, then the bound method is called. *)
Definition loc_distance (self other : t) (p : Z) : result npfloat :=
  let frame := [("self", obj self); ("other", obj other); ("p", VInt p)] in
  _ <- load_name frame "self" ;;               (* the callee, self.utm_distance *)
  a0 <- load_name frame "self" ;;
  o <- load_name frame "other" ;;
  a1 <- getattr o "utm_north" ;;
  a2 <- load_name frame "utm_east" ;;
  a3 <- load_name frame "p" ;;
  call_utm_distance self [a0; a1; a2; a3].

Section Projection.

Variable pyproj_transform : value -> value -> value -> value -> result (Q * Q).

(** Assignment to an attribute of a pydantic model goes through the
    library's [BaseModel.__setattr__], which may refuse it. *)
Variable BaseModel_setattr : string -> value -> result unit.

(** [_to_planar_transform(lat, lon)] *)
Definition _to_planar_transform (lat lon : value) : result (Q * Q) :=
  let frame := [("lat", lat); ("lon", lon)] in
  _ <- load_name frame "pyproj" ;;
  let wgs84 := pyproj_Proj "+init=EPSG:4326" in
  _ <- load_name frame "pyproj" ;;
  let utm23 := pyproj_Proj "+init=EPSG:32723" in
  let frame := ("utm23", utm23) :: ("wgs84", wgs84) :: frame in
  _ <- load_name frame "pyproj" ;;             (* the callee, pyproj.transform *)
  a0 <- load_name frame "wgs84" ;;
  a1 <- load_name frame "utm23" ;;
  self0 <- load_name frame "self" ;;
  a2 <- getattr self0 "lat" ;;
  self1 <- load_name frame "self" ;;
  a3 <- getattr self1 "lon" ;;
  pyproj_transform a0 a1 a2 a3.

(** [__init__(self, location)] *)
Definition __init__ (location : value) : result t :=
  _ <- BaseModel_setattr "location" location ;;
  c0 <- getattr location "coordinates" ;;
  lat <- getitem c0 0 ;;
  _ <- BaseModel_setattr "lat" lat ;;
  c1 <- getattr location "coordinates" ;;
  lon <- getitem c1 1 ;;
  _ <- BaseModel_setattr "lon" lon ;;
  ' (north, east) <- _to_planar_transform lat lon ;;
  _ <- BaseModel_setattr "utm_north" (VNum north) ;;
  _ <- BaseModel_setattr "utm_east" (VNum east) ;;
  Ok {| location := location; lat := lat; lon := lon;
        utm_north := north; utm_east := east |}.

(** [lat_lon_distance(self, lat, lon, p=2)] *)
Definition lat_lon_distance (self : t) (lat lon : value) (p : Z)
  : result npfloat :=
  ' (new_north, new_east) <- _to_planar_transform lat lon ;;
  Ok (utm_distance self new_north new_east p).

End Projection.

End LocationSpec.

(** ** The metric over the arithmetic of the floats

    The body of [utm_distance] once more, this time over the arithmetic
    of binary64 itself: the floats and the four operations the body
    applies to them are parameters, so that nothing is assumed about
    rounding, overflow or underflow.  The coordinates and their
    differences ([C]) and the powers and their sum ([F]) are the same type
    in binary64; they are kept apart so that the exact arithmetic of
    [LocationSpec.utm_distance], which has [inf] among the results only, is
    one instance. *)

Module Float64.

Section Arithmetic.

Variables C F : Type.
Variable sub : C -> C -> C.                   (* x - y *)
Variable abs : C -> C.                        (* np.abs *)
Variable power : C -> Z -> F.                 (* np.power, integer order *)
Variable add : F -> F -> F.                   (* x + y *)

(** The cached planar point of a record. *)
Record t : Type := {
  utm_north : C;
  utm_east : C
}.

(** [utm_distance(self, utm_north, utm_east, p=2)] *)
Definition utm_distance (self : t) (utm_north' utm_east' : C) (p : Z) : F :=
  let dy := power (abs (sub utm_north' (utm_north self))) p in
  let dx := power (abs (sub utm_east' (utm_east self))) p in
  add dx dy.

(** Two laws of binary64: addition commutes, and the two differences of a
    pair of floats are opposite, so their absolute values agree. *)
Definition add_commutes : Prop := forall x y : F, add x y = add y x.

Definition abs_sub_swaps : Prop :=
  forall x y : C, abs (sub x y) = abs (sub y x).

End Arithmetic.

Arguments utm_north {C} _.
Arguments utm_east {C} _.
Arguments Build_t {C} _ _.
Arguments utm_distance {C F} sub abs power add self _ _ p.
Arguments add_commutes {F} add.
Arguments abs_sub_swaps {C} sub abs.

End Float64.

(** The planar point of a record, for the arithmetic above. *)
Definition planar_point (self : LocationSpec.t) : Float64.t Q :=
  Float64.Build_t (LocationSpec.utm_north self) (LocationSpec.utm_east self).

(** ** Enumerations and ModelSpec *)

Inductive TransactionSet : Type := rental | sale.

Definition TransactionSet_value (x : TransactionSet) : string :=
  match x with
  | rental => "aluguel"
  | sale => "venda"
  end.

Inductive CitySet : Type := sp_capital | rj_capital.

Definition CitySet_value (x : CitySet) : string :=
  match x with
  | sp_capital => "sp"
  | rj_capital => "rj"
  end.

Module ModelSpec.

Record t : Type := {
  city : CitySet;
  transaction : TransactionSet
}.

Definition spec (self : t) : string * string :=
  (CitySet_value (city self), TransactionSet_value (transaction self)).

(** The f-string [f"{self.city.value}_{self.transaction.value}"]. *)
Definition __str__ (self : t) : string :=
  CitySet_value (city self) ++ "_" ++ TransactionSet_value (transaction self).

End ModelSpec.

(** ** AVM_AbbrevSpecm *)

Module AVM_AbbrevSpecm.

Record t : Type := {
  city : CitySet;
  transacao : TransactionSet;
  condominio : Q;
  quartos : Z;
  banheiros : Z;
  vagas : Z;
  area : Q;
  suites : Z;
  lat : Q;
  lon : Q
}.

(** The declared fields of an instance, by name. *)
Definition obj (self : t) : value :=
  VObj [ ("city", VStr (CitySet_value (city self)));
         ("transacao", VStr (TransactionSet_value (transacao self)));
         ("condominio", VNum (condominio self));
         ("quartos", VInt (quartos self));
         ("banheiros", VInt (banheiros self));
         ("vagas", VInt (vagas self));
         ("area", VNum (area self));
         ("suites", VInt (suites self));
         ("lat", VNum (lat self));
         ("lon", VNum (lon self)) ].

(** The property [location]. *)
Definition location (self : t) : result value :=
  a <- getattr (obj self) "lat" ;;
  b <- getattr (obj self) "on" ;;
  Ok (VTuple [a; b]).

End AVM_AbbrevSpecm.

(** ** UnitSpec and the validation of its fields

    [Interval = Tuple[float, float]].  A [UnitSpec] is built by pydantic
    from a raw dict: every declared field is required and is validated
    from its declared type, in declaration order; the fields that fail
    are collected and reported together in one validation error, while an
    exception that pydantic does not turn into a field error leaves the
    validation at once.

    What pydantic and Python do on their own is a parameter: the float of
    an int (rounded, or [OverflowError] beyond the range of a double) and
    of a string, and the validators of the two fields that are models
    ([model_context], [location]). *)

Definition Interval : Type := Q * Q.

(** What validating one field gives: its value, a field error, or an
    exception that escapes. *)
Inductive outcome (A : Type) : Type :=
| Valid (a : A)
| Invalid
| Escapes (e : exn).

Arguments Valid {A} a.
Arguments Invalid {A}.
Arguments Escapes {A} e.

Inductive status : Type :=
| Passed
| Failed
| Escaped (e : exn).

Definition status_of {A : Type} (o : outcome A) : status :=
  match o with
  | Valid _ => Passed
  | Invalid => Failed
  | Escapes e => Escaped e
  end.

(** The fields that failed, in the order they were validated. *)
Fixpoint failed_names (report : list (string * status)) : list string :=
  match report with
  | [] => []
  | (name, Failed) :: report' => name :: failed_names report'
  | _ :: report' => failed_names report'
  end.

(** The first exception that escaped, if any. *)
Fixpoint first_escaped (report : list (string * status)) : option exn :=
  match report with
  | [] => None
  | (_, Escaped e) :: _ => Some e
  | _ :: report' => first_escaped report'
  end.

(** A required field: absent is a field error. *)
Definition required {A : Type} (validator : value -> outcome A)
    (entries : list (string * value)) (name : string) : outcome A :=
  match assoc name entries with
  | Some v => validator v
  | None => Invalid
  end.

Module UnitSpec.

Record t : Type := {
  model_context : ModelSpec.t;
  other_costs : Q;
  parkingSets : Interval;
  suites : Interval;
  bathrooms : Interval;
  bedrooms : Interval;
  location : LocationSpec.t
}.


Section Validation.

Variable float_of_int : Z -> outcome Q.
Variable float_of_str : string -> outcome Q.
Variable validate_model_context : value -> outcome ModelSpec.t.
Variable validate_location : value -> outcome LocationSpec.t.

(** A float is kept; anything else goes through [float]: a number or a
    string may have one, [None] and the containers have none. *)
Definition float_validator (v : value) : outcome Q :=
  match v with
  | VNum q => Valid q
  | VInt z => float_of_int z
  | VBool b => Valid (if b then 1 else 0)
  | VStr s => float_of_str s
  | _ => Invalid
  end.

(** A list or a tuple of exactly two elements, each of them a float. *)
Definition validate_Interval (v : value) : outcome Interval :=
  match v with
  | VTuple [a; b] | VList [a; b] =>
      match float_validator a, float_validator b with
      | Escapes e, _ => Escapes e
      | _, Escapes e => Escapes e
      | Valid x, Valid y => Valid (x, y)
      | _, _ => Invalid
      end
  | _ => Invalid
  end.

(** How each declared field of a raw dict fares, in declaration order. *)
Definition report (entries : list (string * value))
  : list (string * status) :=
  [ ("model_context",
     status_of (required validate_model_context entries "model_context"));
    ("other_costs", status_of (required float_validator entries "other_costs"));
    ("parkingSets", status_of (required validate_Interval entries "parkingSets"));
    ("suites", status_of (required validate_Interval entries "suites"));
    ("bathrooms", status_of (required validate_Interval entries "bathrooms"));
    ("bedrooms", status_of (required validate_Interval entries "bedrooms"));
    ("location", status_of (required validate_location entries "location")) ].

(** The fields named by the validation error. *)
Definition errors (entries : list (string * value)) : list string :=
  failed_names (report entries).

Definition validate (entries : list (string * value)) : result t :=
  match first_escaped (report entries) with
  | Some e => Raise e
  | None =>
      match required validate_model_context entries "model_context",
            required float_validator entries "other_costs",
            required validate_Interval entries "parkingSets",
            required validate_Interval entries "suites",
            required validate_Interval entries "bathrooms",
            required validate_Interval entries "bedrooms",
            required validate_location entries "location" with
      | Valid mc, Valid oc, Valid ps, Valid su, Valid ba, Valid be, Valid lo =>
          Ok {| model_context := mc; other_costs := oc; parkingSets := ps;
                suites := su; bathrooms := ba; bedrooms := be;
                location := lo |}
      | _, _, _, _, _, _, _ => Raise (ValidationError (errors entries))
      end
  end.

End Validation.

End UnitSpec.

(** ** Comparing distances *)

(** Python's [<=] on two floats as numpy returns them here. *)
Definition float_leb (x y : npfloat) : bool :=
  match x, y with
  | Finite a, Finite b => Qle_bool a b
  | _, PosInf => true
  | PosInf, Finite _ => false
  end.

Definition float_le (x y : npfloat) : Prop :=
  match x, y with
  | Finite a, Finite b => a <= b
  | _, PosInf => True
  | PosInf, Finite _ => False
  end.

(** ** The alternate constructor of LocationSpec *)

(** What [__init_from_abbrev__] may be handed: an instance of the
    abbreviated schema, whose [location] is a property, or any other
    value, whose [location] is a plain attribute. *)
Inductive abbrev_arg : Type :=
| Abbrev (a : AVM_AbbrevSpecm.t)
| Other (v : value).

Definition abbrev_arg_location (o : abbrev_arg) : result value :=
  match o with
  | Abbrev a => AVM_AbbrevSpecm.location a
  | Other v => getattr v "location"
  end.

Section FromAbbrev.

Variable pyproj_transform : value -> value -> value -> value -> result (Q * Q).
Variable BaseModel_setattr : string -> value -> result unit.

(** Calling the bound method [self.__init__]: after [self] it takes the
    one parameter [location], by position or by keyword, not both. *)
Definition call___init__ (args : list value) (kwargs : list (string * value))
  : result LocationSpec.t :=
  match args, kwargs with
  | [location], [] =>
      LocationSpec.__init__ pyproj_transform BaseModel_setattr location
  | [], [(k, location)] =>
      if String.eqb k "location"
      then LocationSpec.__init__ pyproj_transform BaseModel_setattr location
      else Raise TypeError
  | _, _ => Raise TypeError
  end.

(** [__init_from_abbrev__(self, abbrev_object)]: the positional argument
    and the keyword argument of the call on line 49 are evaluated, then
    the bound method is called. *)
Definition __init_from_abbrev__ (self : LocationSpec.t)
    (abbrev_object : abbrev_arg) : result LocationSpec.t :=
  let frame := [("self", LocationSpec.obj self)] in
  _ <- load_name frame "self" ;;               (* the callee, self.__init__ *)
  a0 <- load_name frame "self" ;;
  location <- abbrev_arg_location abbrev_object ;;
  call___init__ [a0] [("location", location)].

End FromAbbrev.

(** ** Enumerations by value and the validation of ModelSpec

    An [Enum] class is called with a value to get the member that has it.
    The fields of [ModelSpec] are validated by pydantic from their
    declared enum types; the error lists every field that failed. *)

Definition CitySet_members : list CitySet := [sp_capital; rj_capital].

Definition TransactionSet_members : list TransactionSet := [rental; sale].

Definition CitySet_of_value (s : string) : option CitySet :=
  find (fun m => String.eqb (CitySet_value m) s) CitySet_members.

Definition TransactionSet_of_value (s : string) : option TransactionSet :=
  find (fun m => String.eqb (TransactionSet_value m) s) TransactionSet_members.

Definition enum_validator {E : Type} (of_value : string -> option E)
    (v : option value) : option E :=
  match v with
  | Some (VStr s) => of_value s
  | _ => None
  end.

Definition error_loc {E : Type} (name : string) (o : option E)
  : list string :=
  match o with
  | Some _ => []
  | None => [name]
  end.

Definition validate_ModelSpec (raw : value) : result ModelSpec.t :=
  match raw with
  | VDict entries =>
      let c := enum_validator CitySet_of_value (assoc "city" entries) in
      let t := enum_validator TransactionSet_of_value
                 (assoc "transaction" entries) in
      match c, t with
      | Some c, Some t =>
          Ok {| ModelSpec.city := c; ModelSpec.transaction := t |}
      | _, _ =>
          Raise (ValidationError
                   (error_loc "city" c ++ error_loc "transaction" t))
      end
  | _ => Raise (ValidationError ["__root__"])
  end.

(** ** AddressSpec *)

Module AddressSpec.

Record t : Type := {
  street : string;
  streetNumber : string;
  unitNumber : string;
  floor : Z;
  complement : string;
  neighborhood : string;
  city : string;
  state : string;
  country : string;
  cityCode : string;
  zipCode : string;
  zone : string;
  location : LocationSpec.t
}.

(** The declared fields of an instance, by name. *)
Definition obj (self : t) : value :=
  VObj [ ("street", VStr (street self));
         ("streetNumber", VStr (streetNumber self));
         ("unitNumber", VStr (unitNumber self));
         ("floor", VInt (floor self));
         ("complement", VStr (complement self));
         ("neighborhood", VStr (neighborhood self));
         ("city", VStr (city self));
         ("state", VStr (state self));
         ("country", VStr (country self));
         ("cityCode", VStr (cityCode self));
         ("zipCode", VStr (zipCode self));
         ("zone", VStr (zone self));
         ("location", LocationSpec.obj (location self)) ].

Definition newline : string := String (Ascii.ascii_of_nat 10) EmptyString.

Section Format.

(** How Python formats a value inside an f-string. *)
Variable format : value -> string.

(** [__str__(self)]: four f-strings, evaluated and concatenated from left
    to right. *)
Definition __str__ (self : t) : result string :=
  let o := obj self in
  street <- getattr o "street" ;;
  streetNuber <- getattr o "streetNuber" ;;
  unitNumber <- getattr o "unitNumber" ;;
  floor <- getattr o "floor" ;;
  let line1 :=
    format street ++ ", " ++ format streetNuber ++ "/" ++ format unitNumber
    ++ " (andar " ++ format floor ++ ")" ++ newline in
  neighborhood <- getattr o "neighborhood" ;;
  let line2 := format neighborhood ++ newline in
  city <- getattr o "city" ;;
  state <- getattr o "state" ;;
  let part3 := format (VTuple [city; state]) in
  zipCode <- getattr o "zipCode" ;;
  country <- getattr o "country" ;;
  let part4 := format zipCode ++ " -- " ++ format country in
  Ok (line1 ++ line2 ++ part3 ++ part4).

End Format.

End AddressSpec.

(** ** Sample data *)

(** A record whose planar coordinates are given. *)
Definition planar (north east : Q) : LocationSpec.t :=
  {| LocationSpec.location := VNone;
     LocationSpec.lat := VNone;
     LocationSpec.lon := VNone;
     LocationSpec.utm_north := north;
     LocationSpec.utm_east := east |}.

(** A projection library that answers every call. *)
Definition lenient_pyproj (p1 p2 x y : value) : result (Q * Q) :=
  Ok (0, 0).

(** A projection library that rejects latitudes beyond 90 degrees. *)
Definition strict_pyproj (p1 p2 x y : value) : result (Q * Q) :=
  match as_float x with
  | Ok q => if Qle_bool (Qabs q) 90 then Ok (0, 0) else Raise ProjectionError
  | Raise e => Raise e
  end.

(** Attribute assignment as on a plain Python object. *)
Definition plain_setattr (name : string) (v : value) : result unit := Ok tt.





Definition sample_abbrev : AVM_AbbrevSpecm.t :=
  {| AVM_AbbrevSpecm.city := sp_capital;
     AVM_AbbrevSpecm.transacao := sale;
     AVM_AbbrevSpecm.condominio := 500;
     AVM_AbbrevSpecm.quartos := 2;
     AVM_AbbrevSpecm.banheiros := 1;
     AVM_AbbrevSpecm.vagas := 1;
     AVM_AbbrevSpecm.area := 60;
     AVM_AbbrevSpecm.suites := 0;
     AVM_AbbrevSpecm.lat := - (2355 # 100);
     AVM_AbbrevSpecm.lon := - (4663 # 100) |}.


(** * Properties *)

(** ** Floats *)

Lemma float_eqb_eq (x y : npfloat) : float_eqb x y = true <-> float_eq x y.
Proof.
  destruct x as [a|], y as [b|]; simpl.
  - apply Qeq_bool_iff.
  - split; [discriminate | contradiction].
  - split; [discriminate | contradiction].
  - split; trivial.
Qed.

Lemma float_eq_refl (x : npfloat) : float_eq x x.
Proof. destruct x; simpl; [apply Qeq_refl | exact I]. Qed.

Lemma float_add_comm (x y : npfloat) : float_eq (float_add x y) (float_add y x).
Proof.
  destruct x as [a|], y as [b|]; simpl; try exact I.
  apply Qplus_comm.
Qed.

(** A positive order never produces [inf]. *)
Lemma np_power_pos (x : Q) (p : Z) : (0 < p)%Z -> np_power x p = Finite (x ^ p).
Proof.
  intros Hp. unfold np_power.
  destruct (Z.ltb_spec p 0) as [Hneg|_]; [lia | reflexivity].
Qed.

(** Order zero gives one, whatever the base. *)
Lemma np_power_0 (x : Q) : np_power x 0 = Finite 1.
Proof. reflexivity. Qed.

(** The metric only sees the absolute differences, so the roles of the
    record and of the point can be exchanged. *)
Lemma utm_distance_swap (a b : LocationSpec.t) (p : Z) :
  LocationSpec.utm_distance a (LocationSpec.utm_north b) (LocationSpec.utm_east b) p
  = LocationSpec.utm_distance b (LocationSpec.utm_north a) (LocationSpec.utm_east a) p.
Proof.
  unfold LocationSpec.utm_distance, np_abs.
  rewrite (Qabs_Qminus (LocationSpec.utm_north b) (LocationSpec.utm_north a)).
  rewrite (Qabs_Qminus (LocationSpec.utm_east b) (LocationSpec.utm_east a)).
  reflexivity.
Qed.

(** ** Name resolution *)

Lemma self_unbound_at_module_level : assoc "self" module_globals = None.
Proof. reflexivity. Qed.

Lemma utm_east_unbound_at_module_level : assoc "utm_east" module_globals = None.
Proof. reflexivity. Qed.

(** The decorator of [_to_planar_transform] is spelled [jit]; the module
    imports [JIT]. *)
Lemma jit_unbound_at_module_level : load_name [] "jit" = Raise (NameError "jit").
Proof. reflexivity. Qed.

(** The body of the transform loads [self], which neither its parameters
    nor the module bind; the projection library is never reached. *)
Lemma to_planar_transform_raises
    (pyproj_transform : value -> value -> value -> value -> result (Q * Q))
    (lat lon : value) :
  LocationSpec._to_planar_transform pyproj_transform lat lon
  = Raise (NameError "self").
Proof. reflexivity. Qed.

(** Whatever the library lets the initializer assign, no construction
    gets past the transform. *)
Lemma init_never_succeeds
    (pyproj_transform : value -> value -> value -> value -> result (Q * Q))
    (BaseModel_setattr : string -> value -> result unit)
    (location : value) :
  succeeds (LocationSpec.__init__ pyproj_transform BaseModel_setattr location)
  = false.
Proof.
  unfold LocationSpec.__init__.
  destruct (BaseModel_setattr "location" location) as [[]|e]; [| reflexivity].
  cbn [bind].
  destruct (getattr location "coordinates") as [c|e]; [| reflexivity].
  cbn [bind].
  destruct (getitem c 0) as [x|e]; [| reflexivity].
  cbn [bind].
  destruct (BaseModel_setattr "lat" x) as [[]|e]; [| reflexivity].
  cbn [bind].
  destruct (getitem c 1) as [y|e]; [| reflexivity].
  cbn [bind].
  destruct (BaseModel_setattr "lon" y) as [[]|e]; [| reflexivity].
  cbn [bind].
  rewrite to_planar_transform_raises. reflexivity.
Qed.

(** ** The distance metric *)

(** The exact arithmetic is one arithmetic of the kind [Float64] takes:
    it has both laws, and over it the body is [LocationSpec.utm_distance]. *)
Lemma float_add_commutes : Float64.add_commutes float_add.
Proof.
  intros [a|] [b|]; cbn [float_add]; try reflexivity.
  f_equal. unfold Qplus. f_equal; [ring | apply Pos.mul_comm].
Qed.

Lemma np_abs_sub_swaps : Float64.abs_sub_swaps Qminus np_abs.
Proof. intros x y. apply Qabs_Qminus. Qed.

Lemma utm_distance_exact_instance (a : LocationSpec.t) (n e : Q) (p : Z) :
  Float64.utm_distance Qminus np_abs np_power float_add (planar_point a) n e p
  = LocationSpec.utm_distance a n e p.
Proof. reflexivity. Qed.

(** C1: over every arithmetic of the floats in which addition commutes and
    [|x - y| = |y - x|], as in binary64, for every record [a], every planar
    point [(north_b, east_b)] and every positive order [p], [utm_distance]
    returns [|north_a - north_b|^p + |east_a - east_b|^p], the sum of the
    two powers with no root taken; from [(0,0)] to [(3,4)] with [p = 2]
    it returns exactly 25. *)
Theorem utm_distance_sum_of_powers
    (C F : Type) (sub : C -> C -> C) (abs : C -> C) (power : C -> Z -> F)
    (add : F -> F -> F) :
  Float64.add_commutes add ->
  Float64.abs_sub_swaps sub abs ->
  (forall (a : Float64.t C) (north_b east_b : C) (p : Z),
      (0 < p)%Z ->
      Float64.utm_distance sub abs power add a north_b east_b p
      = add (power (abs (sub (Float64.utm_north a) north_b)) p)
            (power (abs (sub (Float64.utm_east a) east_b)) p))
  /\ LocationSpec.utm_distance (planar 0 0) 3 4 2 = Finite 25.
Proof.
  intros Hadd Habs. split; [| reflexivity].
  intros a north_b east_b p _.
  unfold Float64.utm_distance.
  rewrite (Habs north_b (Float64.utm_north a)).
  rewrite (Habs east_b (Float64.utm_east a)).
  apply Hadd.
Qed.

Lemma utm_distance_sum_of_powers_witness :
  Float64.add_commutes float_add
  /\ Float64.abs_sub_swaps Qminus np_abs
  /\ (0 < 3)%Z
  /\ LocationSpec.utm_distance (planar 1 2) 3 5 3
     = float_add (np_power (np_abs (1 - 3)) 3) (np_power (np_abs (2 - 5)) 3).
Proof.
  split; [exact float_add_commutes |].
  split; [exact np_abs_sub_swaps |].
  split; [lia |].
  rewrite <- utm_distance_exact_instance.
  apply (proj1 (utm_distance_sum_of_powers Q npfloat Qminus np_abs np_power
                  float_add float_add_commutes np_abs_sub_swaps)
           (planar_point (planar 1 2)) 3 5 3%Z).
  lia.
Defined.

(** C6: the distance is symmetric.  For all records [a] and [b] and every
    positive order [p], the distance from [a] to the planar point of [b]
    compares equal ([==]) to the distance from [b] to the planar point of
    [a]. *)
Theorem utm_distance_symmetric (a b : LocationSpec.t) (p : Z) :
  (0 < p)%Z ->
  float_eqb
    (LocationSpec.utm_distance a (LocationSpec.utm_north b) (LocationSpec.utm_east b) p)
    (LocationSpec.utm_distance b (LocationSpec.utm_north a) (LocationSpec.utm_east a) p)
  = true.
Proof.
  intros _. rewrite (utm_distance_swap a b p).
  apply float_eqb_eq, float_eq_refl.
Qed.

Lemma utm_distance_symmetric_witness :
  (0 < 2)%Z
  /\ float_eqb
       (LocationSpec.utm_distance (planar 1 2)
          (LocationSpec.utm_north (planar 4 6)) (LocationSpec.utm_east (planar 4 6)) 2)
       (LocationSpec.utm_distance (planar 4 6)
          (LocationSpec.utm_north (planar 1 2)) (LocationSpec.utm_east (planar 1 2)) 2)
     = true.
Proof.
  split; [lia |].
  apply (utm_distance_symmetric (planar 1 2) (planar 4 6) 2%Z); lia.
Defined.

(** With well-typed arguments the bound method returns what the body
    computes, whatever the order. *)
Lemma call_utm_distance_ok (self : LocationSpec.t) (n e : Q) (p : Z) :
  LocationSpec.call_utm_distance self [VNum n; VNum e; VInt p]
  = Ok (LocationSpec.utm_distance self n e p).
Proof. reflexivity. Qed.

(** Four positional arguments are one too many for the bound method. *)
Lemma call_utm_distance_arity (self : LocationSpec.t) (a b c d : value) :
  LocationSpec.call_utm_distance self [a; b; c; d] = Raise TypeError.
Proof. reflexivity. Qed.

(** C4, as stated, fails: with order [p = 0] the distance from [(0,0)] to
    [(3,4)] is returned (it is 2), nothing is raised. *)
Lemma utm_distance_order_zero_returns :
  succeeds (LocationSpec.call_utm_distance (planar 0 0) [VNum 3; VNum 4; VInt 0])
  = true
  /\ LocationSpec.call_utm_distance (planar 0 0) [VNum 3; VNum 4; VInt 0]
     = Ok (Finite 2).
Proof. split; reflexivity. Qed.

(** C4 (amended): the distance operation does not check its order.  For
    every record, every planar point and every integer [p], positive or
    not, the call returns the float the body computes and raises nothing;
    with [p = 0] that float is 2; the default order is 2. *)
Theorem utm_distance_never_fails :
  (forall (self : LocationSpec.t) (n e : Q) (p : Z),
      succeeds (LocationSpec.call_utm_distance self [VNum n; VNum e; VInt p])
      = true)
  /\ (forall (self : LocationSpec.t) (n e : Q),
         LocationSpec.call_utm_distance self [VNum n; VNum e; VInt 0]
         = Ok (Finite 2))
  /\ (forall (self : LocationSpec.t) (n e : Q),
         LocationSpec.call_utm_distance self [VNum n; VNum e]
         = LocationSpec.call_utm_distance self [VNum n; VNum e; VInt 2]).
Proof.
  repeat split; intros; reflexivity.
Qed.

(** ** Record to record distance *)

(** C2 (defect): [loc_distance] never reaches the distance: for all
    records and every order, evaluating the arguments of its call raises
    [NameError] on [utm_east], so it does not return the distance between
    the two cached planar points. *)
Theorem loc_distance_raises_NameError (self other : LocationSpec.t) (p : Z) :
  LocationSpec.loc_distance self other p = Raise (NameError "utm_east")
  /\ LocationSpec.loc_distance self other p
     <> Ok (LocationSpec.utm_distance self
              (LocationSpec.utm_north other) (LocationSpec.utm_east other) p).
Proof.
  assert (H : LocationSpec.loc_distance self other p
              = Raise (NameError "utm_east")).
  { unfold LocationSpec.loc_distance, load_name.
    cbn [assoc String.eqb Ascii.eqb Bool.eqb bind].
    rewrite utm_east_unbound_at_module_level. reflexivity. }
  split; [exact H | rewrite H; discriminate].
Qed.

(** ** Construction of a LocationSpec *)

(** An object exposing [coordinates] gets past the attribute accesses and
    then fails in the transform. *)
Lemma init_from_coordinates_object
    (pyproj_transform : value -> value -> value -> value -> result (Q * Q))
    (lat lon : value) :
  LocationSpec.__init__ pyproj_transform plain_setattr
    (VObj [("coordinates", VTuple [lat; lon])])
  = Raise (NameError "self").
Proof. reflexivity. Qed.

(** Sao Paulo, as a raw tuple, over a library that answers every call. *)
Example init_sample_tuple :
  LocationSpec.__init__ lenient_pyproj plain_setattr
    (VTuple [VNum (- (2355 # 100)); VNum (- (4663 # 100))])
  = Raise (AttributeError "coordinates").
Proof. reflexivity. Qed.

Example transform_sample_in_domain :
  LocationSpec._to_planar_transform lenient_pyproj
    (VNum (- (2355 # 100))) (VNum (- (4663 # 100)))
  = Raise (NameError "self").
Proof. reflexivity. Qed.

(** C3 (defect): constructing a record from a raw 2-tuple [(lat, lon)]
    fails, whatever the projection library and the model base class do;
    where the assignment to [self.location] is let through, the
    initializer asks the tuple for an attribute [coordinates] and raises
    [AttributeError]. *)
Theorem init_from_tuple_raises
    (pyproj_transform : value -> value -> value -> value -> result (Q * Q))
    (BaseModel_setattr : string -> value -> result unit)
    (lat lon : Q) :
  succeeds
    (LocationSpec.__init__ pyproj_transform BaseModel_setattr
       (VTuple [VNum lat; VNum lon]))
  = false
  /\ LocationSpec.__init__ pyproj_transform plain_setattr
       (VTuple [VNum lat; VNum lon])
     = Raise (AttributeError "coordinates").
Proof.
  split; [apply init_never_succeeds | reflexivity].
Qed.

(** C10 (defect): the body of the transform helper loads the unbound name
    [self].  For every input and every projection library the helper
    raises [NameError]; hence no construction of a record and no
    [lat_lon_distance] succeeds. *)
Theorem to_planar_transform_loads_unbound_self
    (pyproj_transform : value -> value -> value -> value -> result (Q * Q))
    (lat lon : value) :
  LocationSpec._to_planar_transform pyproj_transform lat lon
  = Raise (NameError "self")
  /\ (forall (BaseModel_setattr : string -> value -> result unit)
             (location : value),
         succeeds
           (LocationSpec.__init__ pyproj_transform BaseModel_setattr location)
         = false)
  /\ (forall (self : LocationSpec.t) (p : Z),
         succeeds (LocationSpec.lat_lon_distance pyproj_transform self lat lon p)
         = false).
Proof.
  split; [apply to_planar_transform_raises |].
  split.
  - intros BaseModel_setattr location. apply init_never_succeeds.
  - intros self p. unfold LocationSpec.lat_lon_distance.
    rewrite to_planar_transform_raises. reflexivity.
Qed.

(** ** The coordinate transform and its domain *)

(** C8 (defect): at [lat = 91, lon = 0] a projection library that rejects
    such a latitude with [ProjectionError] is never asked: the helper
    raises [NameError] on [self] before the call, there and at every other
    input.  The failure is the one of C10. *)
Theorem transform_lat_91_raises_NameError :
  strict_pyproj (pyproj_Proj "+init=EPSG:4326") (pyproj_Proj "+init=EPSG:32723")
    (VNum 91) (VNum 0)
  = Raise ProjectionError
  /\ LocationSpec._to_planar_transform strict_pyproj (VNum 91) (VNum 0)
     = Raise (NameError "self")
  /\ (forall lat lon : value,
         LocationSpec._to_planar_transform strict_pyproj lat lon
         = Raise (NameError "self")).
Proof.
  split; [reflexivity |].
  split; [apply to_planar_transform_raises |].
  intros lat lon. apply to_planar_transform_raises.
Qed.

(** ** The model key *)

Lemma str_injective (m m' : ModelSpec.t) :
  ModelSpec.__str__ m = ModelSpec.__str__ m' -> m = m'.
Proof.
  destruct m as [[|] [|]], m' as [[|] [|]]; simpl;
    intros H; try reflexivity; discriminate H.
Qed.

(** C7: the key of a (city, transaction) pair is the value of the city,
    an underscore and the value of the transaction; for Sao Paulo and a
    sale it is exactly ["sp_venda"]. *)
Theorem model_key_format :
  (forall m : ModelSpec.t,
      ModelSpec.__str__ m
      = fst (ModelSpec.spec m) ++ "_" ++ snd (ModelSpec.spec m))
  /\ ModelSpec.__str__
       {| ModelSpec.city := sp_capital; ModelSpec.transaction := sale |}
     = "sp_venda"
  /\ ModelSpec.__str__
       {| ModelSpec.city := sp_capital; ModelSpec.transaction := rental |}
     = "sp_aluguel"
  /\ ModelSpec.__str__
       {| ModelSpec.city := rj_capital; ModelSpec.transaction := sale |}
     = "rj_venda"
  /\ ModelSpec.__str__
       {| ModelSpec.city := rj_capital; ModelSpec.transaction := rental |}
     = "rj_aluguel".
Proof.
  split; [intros [c tr]; reflexivity | repeat split].
Qed.

(** ** The abbreviated schema *)

Example abbrev_location_sample :
  AVM_AbbrevSpecm.location sample_abbrev = Raise (AttributeError "on").
Proof. reflexivity. Qed.

(** C9 (defect): the [location] property of the abbreviated schema never
    returns the pair: for every instance it raises [AttributeError] on the
    misspelled attribute [on]. *)
Theorem abbrev_location_raises (self : AVM_AbbrevSpecm.t) :
  AVM_AbbrevSpecm.location self = Raise (AttributeError "on")
  /\ AVM_AbbrevSpecm.location self
     <> Ok (VTuple [VNum (AVM_AbbrevSpecm.lat self);
                    VNum (AVM_AbbrevSpecm.lon self)]).
Proof.
  assert (H : AVM_AbbrevSpecm.location self = Raise (AttributeError "on")).
  { unfold AVM_AbbrevSpecm.location, AVM_AbbrevSpecm.obj, getattr.
    reflexivity. }
  split; [exact H | rewrite H; discriminate].
Qed.

(** ** Interval fields *)

Section IntervalFields.

Variable float_of_int : Z -> outcome Q.
Variable float_of_str : string -> outcome Q.
Variable validate_model_context : value -> outcome ModelSpec.t.
Variable validate_location : value -> outcome LocationSpec.t.

Let float_validator := UnitSpec.float_validator float_of_int float_of_str.
Let validate_Interval := UnitSpec.validate_Interval float_of_int float_of_str.
Let report :=
  UnitSpec.report float_of_int float_of_str validate_model_context
    validate_location.
Let errors :=
  UnitSpec.errors float_of_int float_of_str validate_model_context
    validate_location.
Let validate :=
  UnitSpec.validate float_of_int float_of_str validate_model_context
    validate_location.






End IntervalFields.



(** * Further properties of the module *)

(** ** Arithmetic of the metric *)

Lemma Qabs_zero_iff (x : Q) : Qabs x == 0 <-> x == 0.
Proof.
  split; intros H.
  - revert H. apply Qabs_case; intros; lra.
  - rewrite H. reflexivity.
Qed.

Lemma Qminus_zero_iff (x y : Q) : x - y == 0 <-> x == y.
Proof. split; intros H; lra. Qed.

Lemma float_leb_le (x y : npfloat) : float_leb x y = true <-> float_le x y.
Proof.
  destruct x as [a|], y as [b|]; simpl.
  - apply Qle_bool_iff.
  - tauto.
  - split; [discriminate | contradiction].
  - tauto.
Qed.



Lemma np_power_inf (x : Q) (p : Z) :
  np_power x p = PosInf <-> (p < 0)%Z /\ x == 0.
Proof.
  unfold np_power.
  destruct (Z.ltb_spec p 0) as [Hp|Hp]; simpl.
  - destruct (Qeq_bool x 0) eqn:E.
    + apply Qeq_bool_eq in E. tauto.
    + apply Qeq_bool_neq in E. split; [discriminate | tauto].
  - split; [discriminate | lia].
Qed.

Lemma float_add_inf (x y : npfloat) :
  float_add x y = PosInf <-> x = PosInf \/ y = PosInf.
Proof.
  destruct x, y; simpl; split; intros H; auto; try discriminate;
    destruct H; discriminate.
Qed.

Lemma np_power_nonneg (x : Q) (p : Z) :
  0 <= x -> float_le (Finite 0) (np_power x p).
Proof.
  intros H. unfold np_power.
  destruct ((p <? 0)%Z && Qeq_bool x 0); simpl; [exact I |].
  apply Qpower_0_le, H.
Qed.

(** ** The distance metric, continued *)

(** X1: for a positive order, the distance of a record to its own planar
    point is zero. *)
Theorem utm_distance_to_itself_is_zero (a : LocationSpec.t) (p : Z) :
  (0 < p)%Z ->
  float_eqb
    (LocationSpec.utm_distance a
       (LocationSpec.utm_north a) (LocationSpec.utm_east a) p)
    (Finite 0)
  = true.
Proof.
  intros Hp. apply float_eqb_eq.
  unfold LocationSpec.utm_distance, np_abs.
  rewrite !np_power_pos by assumption. cbn [float_add float_eq].
  assert (Hzero : forall x : Q, Qabs (x - x) ^ p == 0).
  { intros x.
    assert (H : Qabs (x - x) == 0) by (apply Qabs_zero_iff; ring).
    rewrite H. apply Qpower_0. lia. }
  rewrite !Hzero. reflexivity.
Qed.

Lemma utm_distance_to_itself_is_zero_witness :
  (0 < 3)%Z
  /\ float_eqb
       (LocationSpec.utm_distance (planar 1 2)
          (LocationSpec.utm_north (planar 1 2))
          (LocationSpec.utm_east (planar 1 2)) 3)
       (Finite 0)
     = true.
Proof.
  split; [lia |].
  apply (utm_distance_to_itself_is_zero (planar 1 2) 3%Z); lia.
Defined.

(** X2: for a negative order, the distance to a point that has the north
    or the east coordinate of the record is [inf]: zero is raised to a
    negative power.  In particular the distance of a record to its own
    planar point is infinite for every negative order. *)
Theorem utm_distance_inf_on_shared_axis
    (a : LocationSpec.t) (n e : Q) (p : Z) :
  (p < 0)%Z ->
  Qeq_bool n (LocationSpec.utm_north a) = true
  \/ Qeq_bool e (LocationSpec.utm_east a) = true ->
  LocationSpec.utm_distance a n e p = PosInf.
Proof.
  intros Hp Haxis.
  unfold LocationSpec.utm_distance, np_abs.
  rewrite float_add_inf, !np_power_inf, !Qabs_zero_iff, !Qminus_zero_iff.
  rewrite !Qeq_bool_iff in Haxis. tauto.
Qed.

Lemma utm_distance_inf_on_shared_axis_witness :
  (-1 < 0)%Z
  /\ (Qeq_bool 1 (LocationSpec.utm_north (planar 1 2)) = true
      \/ Qeq_bool 5 (LocationSpec.utm_east (planar 1 2)) = true)
  /\ LocationSpec.utm_distance (planar 1 2) 1 5 (-1) = PosInf.
Proof.
  split; [lia |].
  split; [left; reflexivity |].
  apply (utm_distance_inf_on_shared_axis (planar 1 2) 1 5 (-1)%Z);
    [lia | left; reflexivity].
Defined.

(** X3: whatever the order, [utm_distance] is never negative. *)
Theorem utm_distance_nonneg (a : LocationSpec.t) (n e : Q) (p : Z) :
  float_leb (Finite 0) (LocationSpec.utm_distance a n e p) = true.
Proof.
  apply float_leb_le.
  unfold LocationSpec.utm_distance, np_abs.
  pose proof (np_power_nonneg _ p
                (Qabs_nonneg (n - LocationSpec.utm_north a))) as Hy.
  pose proof (np_power_nonneg _ p
                (Qabs_nonneg (e - LocationSpec.utm_east a))) as Hx.
  destruct (np_power (Qabs (n - LocationSpec.utm_north a)) p),
           (np_power (Qabs (e - LocationSpec.utm_east a)) p);
    simpl in *; try exact I.
  lra.
Qed.


(** ** The alternate constructor *)

(** X8: [__init_from_abbrev__] never builds a record, whatever the
    projection library and the model base class do.  Handed an instance of
    the abbreviated schema it raises [AttributeError] while reading the
    [location] property; handed any object whose [location] can be read,
    it raises [TypeError], because [location] reaches [__init__] both by
    position and by keyword. *)
Theorem init_from_abbrev_never_succeeds
    (pyproj_transform : value -> value -> value -> value -> result (Q * Q))
    (BaseModel_setattr : string -> value -> result unit)
    (self : LocationSpec.t) :
  (forall o : abbrev_arg,
      succeeds (__init_from_abbrev__ pyproj_transform BaseModel_setattr self o)
      = false)
  /\ (forall a : AVM_AbbrevSpecm.t,
         __init_from_abbrev__ pyproj_transform BaseModel_setattr self (Abbrev a)
         = Raise (AttributeError "on"))
  /\ (forall (location : value) (attrs : list (string * value)),
         __init_from_abbrev__ pyproj_transform BaseModel_setattr self
           (Other (VObj (("location", location) :: attrs)))
         = Raise TypeError).
Proof.
  assert (Hcall : forall location : value,
             call___init__ pyproj_transform BaseModel_setattr
               [LocationSpec.obj self] [("location", location)]
             = Raise TypeError) by reflexivity.
  split; [| split].
  - intros o. unfold __init_from_abbrev__.
    cbn [load_name assoc String.eqb Ascii.eqb Bool.eqb bind].
    destruct (abbrev_arg_location o) as [location|err]; [| reflexivity].
    cbn [bind]. rewrite Hcall. reflexivity.
  - intros a. reflexivity.
  - intros location attrs. reflexivity.
Qed.

(** ** AddressSpec *)

(** X9: the string form of an address is never produced: for every
    address and every way of formatting values, [__str__] raises
    [AttributeError] on the attribute [streetNuber], which no address
    has (the field is [streetNumber]). *)
Theorem address_str_raises (format : value -> string) (self : AddressSpec.t) :
  AddressSpec.__str__ format self = Raise (AttributeError "streetNuber")
  /\ getattr (AddressSpec.obj self) "streetNumber"
     = Ok (VStr (AddressSpec.streetNumber self)).
Proof.
  split.
  - unfold AddressSpec.__str__, AddressSpec.obj, getattr. reflexivity.
  - reflexivity.
Qed.

(** ** Enumerations and ModelSpec *)

Lemma CitySet_of_value_iff (s : string) (c : CitySet) :
  CitySet_of_value s = Some c <-> CitySet_value c = s.
Proof.
  unfold CitySet_of_value, CitySet_members. cbn [find CitySet_value].
  destruct (String.eqb_spec "sp" s) as [<-|Hsp].
  - destruct c; split; intros H; try reflexivity; discriminate H.
  - destruct (String.eqb_spec "rj" s) as [<-|Hrj].
    + destruct c; split; intros H; try reflexivity; discriminate H.
    + destruct c; split; intros H; try discriminate H; contradiction.
Qed.

Lemma TransactionSet_of_value_iff (s : string) (t : TransactionSet) :
  TransactionSet_of_value s = Some t <-> TransactionSet_value t = s.
Proof.
  unfold TransactionSet_of_value, TransactionSet_members.
  cbn [find TransactionSet_value].
  destruct (String.eqb_spec "aluguel" s) as [<-|Ha].
  - destruct t; split; intros H; try reflexivity; discriminate H.
  - destruct (String.eqb_spec "venda" s) as [<-|Hv].
    + destruct t; split; intros H; try reflexivity; discriminate H.
    + destruct t; split; intros H; try discriminate H; contradiction.
Qed.

(** X10: members and values of the two enumerations correspond one to
    one: looking a string up by value gives a member exactly when that
    member has the string as its value. *)
Theorem enum_value_round_trip :
  (forall (s : string) (c : CitySet),
      CitySet_of_value s = Some c <-> CitySet_value c = s)
  /\ (forall (s : string) (t : TransactionSet),
         TransactionSet_of_value s = Some t <-> TransactionSet_value t = s).
Proof.
  split; [exact CitySet_of_value_iff | exact TransactionSet_of_value_iff].
Qed.

(** X11: the model key identifies the model: two model specs have the
    same string form exactly when they are the same (city, transaction)
    pair, and likewise for the pair returned by [spec]. *)
Theorem model_key_injective (m m' : ModelSpec.t) :
  (ModelSpec.__str__ m = ModelSpec.__str__ m' <-> m = m')
  /\ (ModelSpec.spec m = ModelSpec.spec m' <-> m = m').
Proof.
  split; (split; [| intros ->; reflexivity]).
  - apply str_injective.
  - destruct m as [[|] [|]], m' as [[|] [|]]; cbn;
      intros H; try reflexivity; discriminate H.
Qed.

(** X12: a model spec written out by the values of its two fields
    validates back to itself. *)
Theorem validate_ModelSpec_round_trip (m : ModelSpec.t) :
  validate_ModelSpec
    (VDict [ ("city", VStr (CitySet_value (ModelSpec.city m)));
             ("transaction",
              VStr (TransactionSet_value (ModelSpec.transaction m))) ])
  = Ok m.
Proof.
  destruct m as [c t]. unfold validate_ModelSpec.
  cbn [assoc String.eqb Ascii.eqb Bool.eqb enum_validator
       ModelSpec.city ModelSpec.transaction].
  rewrite (proj2 (CitySet_of_value_iff _ c) eq_refl).
  rewrite (proj2 (TransactionSet_of_value_iff _ t) eq_refl).
  reflexivity.
Qed.

(** X13: when a raw record with the strings [city] and [transaction]
    validates, the key of the validated model spec is the two raw strings
    joined by an underscore. *)
Theorem validated_model_key (city transaction : string) (m : ModelSpec.t) :
  validate_ModelSpec
    (VDict [("city", VStr city); ("transaction", VStr transaction)])
  = Ok m ->
  ModelSpec.__str__ m = city ++ "_" ++ transaction.
Proof.
  unfold validate_ModelSpec.
  cbn [assoc String.eqb Ascii.eqb Bool.eqb enum_validator].
  destruct (CitySet_of_value city) as [c|] eqn:Ec;
    destruct (TransactionSet_of_value transaction) as [t|] eqn:Et;
    intros H; try discriminate H.
  injection H as <-.
  apply CitySet_of_value_iff in Ec. apply TransactionSet_of_value_iff in Et.
  unfold ModelSpec.__str__. cbn [ModelSpec.city ModelSpec.transaction].
  rewrite Ec, Et. reflexivity.
Qed.

Lemma validated_model_key_witness :
  validate_ModelSpec (VDict [("city", VStr "rj"); ("transaction", VStr "aluguel")])
  = Ok {| ModelSpec.city := rj_capital; ModelSpec.transaction := rental |}
  /\ ModelSpec.__str__
       {| ModelSpec.city := rj_capital; ModelSpec.transaction := rental |}
     = "rj" ++ "_" ++ "aluguel".
Proof.
  split; [reflexivity |].
  apply (validated_model_key "rj" "aluguel"
           {| ModelSpec.city := rj_capital; ModelSpec.transaction := rental |}).
  reflexivity.
Defined.

(** X14: the enumerations are closed: a raw record with the strings
    [city] and [transaction] validates exactly when [city] is ["sp"] or
    ["rj"] and [transaction] is ["aluguel"] or ["venda"]; the names of
    the members ([sp_capital], [sale], ...) are not accepted. *)
Theorem validate_ModelSpec_closed_sets (city transaction : string) :
  succeeds
    (validate_ModelSpec
       (VDict [("city", VStr city); ("transaction", VStr transaction)]))
  = true
  <-> In city ["sp"; "rj"] /\ In transaction ["aluguel"; "venda"].
Proof.
  unfold validate_ModelSpec.
  cbn [assoc String.eqb Ascii.eqb Bool.eqb enum_validator].
  assert (Hc : (exists c, CitySet_of_value city = Some c)
               <-> In city ["sp"; "rj"]).
  { split.
    - intros [c H]. apply CitySet_of_value_iff in H. subst city.
      destruct c; simpl; auto.
    - intros [<-|[<-|[]]]; [exists sp_capital | exists rj_capital];
        reflexivity. }
  assert (Ht : (exists t, TransactionSet_of_value transaction = Some t)
               <-> In transaction ["aluguel"; "venda"]).
  { split.
    - intros [t H]. apply TransactionSet_of_value_iff in H. subst transaction.
      destruct t; simpl; auto.
    - intros [<-|[<-|[]]]; [exists rental | exists sale]; reflexivity. }
  rewrite <- Hc, <- Ht.
  destruct (CitySet_of_value city) as [c|];
    destruct (TransactionSet_of_value transaction) as [t|]; cbn.
  - split; [intros _; split; eauto | reflexivity].
  - split; [discriminate | intros [_ [t H]]; discriminate H].
  - split; [discriminate | intros [[c H] _]; discriminate H].
  - split; [discriminate | intros [[c H] _]; discriminate H].
Qed.
